(** * BandSplitRNN: the band-sequence module and the training loss

    A shallow embedding of [src/model/modules/bandsequence.py]
    ([RNNModule], [BandSequenceModelModule]) and of
    [PLModel.compute_losses] from [src/model/pl_model.py].

    Tensors are contiguous storage plus a shape, as in torch.  The scalar
    type is abstract (an interface with the operations the layers use);
    floating-point rounding is not modelled.  The torch layers the source
    instantiates ([nn.GroupNorm], [nn.RNN]/[nn.LSTM]/[nn.GRU], [nn.Linear],
    [nn.L1Loss]) are written out from their documented contracts, with the
    argument checks they make: the channel count and the non-empty extent
    of the normalisation, the positive sizes and the input width of the
    recurrent network, the input width of the projection. *)

From Stdlib Require Import String List ZArith Lia Bool Arith.
Import ListNotations.

Set Implicit Arguments.

(** ** Scalars *)

Class Scalar (R : Type) := {
  zero : R;
  one : R;
  add : R -> R -> R;
  sub : R -> R -> R;
  mul : R -> R -> R;
  div : R -> R -> R;
  sqrt : R -> R;
  tanh : R -> R;
  sigmoid : R -> R;
  abs : R -> R;
  of_nat : nat -> R;
  eps : R  (* the default [eps=1e-5] of [nn.GroupNorm] *)
}.

(** The laws of exact arithmetic the development relies on. *)
Class ScalarLaws (R : Type) `{Scalar R} : Prop := {
  add_zero_l : forall x : R, add zero x = x;
  add_zero_r : forall x : R, add x zero = x;
  mul_zero_l : forall x : R, mul zero x = zero
}.
Arguments ScalarLaws R {_}.

(** ** Python exceptions and the error monad *)

Inductive exn : Type :=
| ValueError      (* tuple unpacking of [x.shape] with the wrong arity; a
                     size of the recurrent network that is not positive *)
| RuntimeError    (* a torch shape check *)
| AttributeError  (* [getattr(nn, rnn_type)] on an unknown name *)
| IndexError.     (* a list index out of range *)

Inductive result (A : Type) : Type :=
| Ok (a : A)
| Err (e : exn).
Arguments Ok {A} a.
Arguments Err {A} e.

Definition bind {A B} (r : result A) (k : A -> result B) : result B :=
  match r with
  | Ok a => k a
  | Err e => Err e
  end.

Notation "x <- c ;; k" := (bind c (fun x => k))
  (at level 61, c at next level, right associativity).
Notation "' pat <- c ;; k" := (bind c (fun x => match x with pat => k end))
  (at level 61, pat pattern, c at next level, right associativity).

(** ** Lists as contiguous storage *)

Section Storage.
Context {A : Type}.

(** [chunks c n l]: the first [c] consecutive blocks of [n] elements. *)
Fixpoint chunks (c n : nat) (l : list A) : list (list A) :=
  match c with
  | 0 => []
  | S c' => firstn n l :: chunks c' n (skipn n l)
  end.

(** Apply [f] to each of the [c] blocks of [n] elements and lay the
    results out one after the other. *)
Definition per_chunk {B} (c n : nat) (f : list A -> list B) (l : list A)
  : list B :=
  concat (map f (chunks c n l)).

(** Column [j] of a matrix given by rows. *)
Definition column (j : nat) (m : list (list A)) : list A :=
  flat_map (fun row => firstn 1 (skipn j row)) m.

(** Transposition of a matrix with [cols] columns, given by rows. *)
Definition transpose (cols : nat) (m : list (list A)) : list (list A) :=
  map (fun j => column j m) (seq 0 cols).
End Storage.

Definition numel (sh : list nat) : nat := fold_right Nat.mul 1 sh.

Definition shape_eqb (a b : list nat) : bool :=
  if list_eq_dec Nat.eq_dec a b then true else false.

(** ** Tensors *)

Section Tensors.
Context {R : Type} `{Scalar R}.

Record tensor : Type := mk_tensor {
  shape : list nat;
  data : list R
}.


(** [x.view(sh)] on contiguous storage. *)
Definition view (x : tensor) (sh : list nat) : result tensor :=
  if numel sh =? numel (shape x)
  then Ok {| shape := sh; data := data x |}
  else Err RuntimeError.

Definition vadd (a b : list R) : list R :=
  map (fun p => add (fst p) (snd p)) (combine a b).

Definition vmul (a b : list R) : list R :=
  map (fun p => mul (fst p) (snd p)) (combine a b).

Definition vsum (a : list R) : R := fold_left add a zero.

Definition dot (a b : list R) : R := vsum (vmul a b).

(** [w] is given by rows: one row per output component. *)
Definition matvec (w : list (list R)) (v : list R) : list R :=
  map (fun row => dot row v) w.

(** [a + b] for tensors of one shape (the only case [forward] reaches;
    broadcasting is not modelled). *)
Definition tensor_add (a b : tensor) : result tensor :=
  if shape_eqb (shape a) (shape b)
  then Ok {| shape := shape a; data := vadd (data a) (data b) |}
  else Err RuntimeError.

(** One batch element [(K, T, N)] rewritten in the order [(T, K, N)]. *)
Definition swap_axes (K T N : nat) (sample : list R) : list R :=
  concat (concat (transpose T (map (chunks T N) (chunks K (T * N) sample)))).

(** [x.permute(0, 2, 1, 3).contiguous()]. *)
Definition permute_0213 (x : tensor) : result tensor :=
  match shape x with
  | [B; K; T; N] =>
      Ok {| shape := [B; T; K; N];
            data := per_chunk B (K * (T * N)) (swap_axes K T N) (data x) |}
  | _ => Err RuntimeError
  end.



End Tensors.
Arguments tensor : clear implicits.


(** ** The torch layers the source instantiates *)

(** [nn.GroupNorm(1, num_channels)]: the source always asks for one group.
    Input [(B, C, ...)]; every batch element is normalised over all of its
    values, then channel [c] is scaled by [weight[c]] and shifted by
    [bias[c]].  Two checks raise [RuntimeError]: the channel count of the
    input differs from [num_channels], or the extent after the channel
    axis is empty ("Expected HxW to be greater than 0"). *)
Module GroupNorm.
Section Def.
Context {R : Type} `{Scalar R}.

Record t : Type := mk {
  num_channels : nat;
  weight : list R;
  bias : list R
}.

Definition wf (g : t) : Prop :=
  length (weight g) = num_channels g /\ length (bias g) = num_channels g.

Definition normalize (sample : list R) : list R :=
  let n := of_nat (length sample) in
  let mean := div (vsum sample) n in
  let centered := map (fun v => sub v mean) sample in
  let var := div (vsum (map (fun d => mul d d) centered)) n in
  let sd := sqrt (add var eps) in
  map (fun d => div d sd) centered.

Definition affine (g : t) (inner : nat) (sample : list R) : list R :=
  concat
    (map (fun cwb => map (fun v => add (mul v (fst (snd cwb))) (snd (snd cwb)))
                         (fst cwb))
         (combine (chunks (num_channels g) inner sample)
                  (combine (weight g) (bias g)))).

Definition forward (g : t) (x : tensor R) : result (tensor R) :=
  match shape x with
  | B :: C :: rest =>
      if C =? num_channels g
      then
        if numel rest =? 0
        then Err RuntimeError
        else Ok {| shape := shape x;
                   data := per_chunk B (C * numel rest)
                             (fun sample =>
                                affine g (numel rest) (normalize sample))
                             (data x) |}
      else Err RuntimeError
  | _ => Err RuntimeError
  end.

(** [__init__]: weight is all ones, bias all zeros. *)
Definition init (c : nat) : t :=
  {| num_channels := c; weight := repeat one c; bias := repeat zero c |}.
End Def.
Arguments t : clear implicits.
End GroupNorm.

(** [nn.Linear(in_features, out_features)], applied to the last axis. *)
Module Linear.
Section Def.
Context {R : Type} `{Scalar R}.

Record t : Type := mk {
  in_features : nat;
  out_features : nat;
  weight : list (list R);   (* [out_features] rows of [in_features] *)
  bias : list R
}.

Definition wf (l : t) : Prop :=
  length (weight l) = out_features l /\
  Forall (fun row => length row = in_features l) (weight l) /\
  length (bias l) = out_features l.

Definition apply (l : t) (v : list R) : list R :=
  vadd (matvec (weight l) v) (bias l).

(** All weights and the bias are zero. *)
Definition is_zero (l : t) : Prop :=
  Forall (Forall (fun a => a = zero)) (weight l) /\
  Forall (fun a => a = zero) (bias l).

Definition forward (l : t) (x : tensor R) : result (tensor R) :=
  match rev (shape x) with
  | last :: lead =>
      if last =? in_features l
      then Ok {| shape := rev lead ++ [out_features l];
                 data := per_chunk (numel (rev lead)) (in_features l)
                           (apply l) (data x) |}
      else Err RuntimeError
  | [] => Err RuntimeError
  end.
End Def.
Arguments t : clear implicits.
End Linear.

(** [nn.RNN], [nn.LSTM], [nn.GRU] with one layer, [batch_first=True]. *)
Module RNNBase.

Inductive mode : Type := RNN_TANH | LSTM | GRU.

Definition gate_size (m : mode) (h : nat) : nat :=
  match m with
  | RNN_TANH => h
  | LSTM => 4 * h
  | GRU => 3 * h
  end.

Section Def.
Context {R : Type} `{Scalar R}.

(** The parameters of one direction. *)
Record weights : Type := mk_weights {
  weight_ih : list (list R);
  weight_hh : list (list R);
  bias_ih : list R;
  bias_hh : list R
}.

Record t : Type := mk {
  kind : mode;
  input_size : nat;
  hidden_size : nat;
  bidirectional : bool;
  l0 : weights;
  l0_reverse : option weights
}.

Definition num_directions (r : t) : nat :=
  if bidirectional r then 2 else 1.

Definition weights_wf (m : mode) (i h : nat) (w : weights) : Prop :=
  length (weight_ih w) = gate_size m h /\
  Forall (fun row => length row = i) (weight_ih w) /\
  length (weight_hh w) = gate_size m h /\
  Forall (fun row => length row = h) (weight_hh w) /\
  length (bias_ih w) = gate_size m h /\
  length (bias_hh w) = gate_size m h.

Definition wf (r : t) : Prop :=
  weights_wf (kind r) (input_size r) (hidden_size r) (l0 r) /\
  match l0_reverse r with
  | Some w => bidirectional r = true /\
              weights_wf (kind r) (input_size r) (hidden_size r) w
  | None => bidirectional r = false
  end.

Definition weights_zero (w : weights) : Prop :=
  Forall (Forall (fun a => a = zero)) (weight_ih w) /\
  Forall (Forall (fun a => a = zero)) (weight_hh w) /\
  Forall (fun a => a = zero) (bias_ih w) /\
  Forall (fun a => a = zero) (bias_hh w).

(** All weights and biases of every direction are zero. *)
Definition is_zero (r : t) : Prop :=
  weights_zero (l0 r) /\
  match l0_reverse r with
  | Some w => weights_zero w
  | None => True
  end.

(** Hidden state and cell state of one direction for one sequence. *)
Definition state : Type := (list R * list R)%type.

Definition zero_state (h : nat) : state := (repeat zero h, repeat zero h).

Definition state_wf (h : nat) (st : state) : Prop :=
  length (fst st) = h /\ length (snd st) = h.

(** The [j]-th block of [h] gate pre-activations. *)
Definition gate (h j : nat) (g : list R) : list R :=
  firstn h (skipn (j * h) g).

Definition cell (m : mode) (h : nat) (w : weights) (x : list R) (st : state)
  : state :=
  let gi := vadd (matvec (weight_ih w) x) (bias_ih w) in
  let gh := vadd (matvec (weight_hh w) (fst st)) (bias_hh w) in
  match m with
  | RNN_TANH => (map tanh (vadd gi gh), snd st)
  | LSTM =>
      let g := vadd gi gh in
      let i := map sigmoid (gate h 0 g) in
      let f := map sigmoid (gate h 1 g) in
      let gg := map tanh (gate h 2 g) in
      let o := map sigmoid (gate h 3 g) in
      let c' := vadd (vmul f (snd st)) (vmul i gg) in
      (vmul o (map tanh c'), c')
  | GRU =>
      let r := map sigmoid (vadd (gate h 0 gi) (gate h 0 gh)) in
      let z := map sigmoid (vadd (gate h 1 gi) (gate h 1 gh)) in
      let n := map tanh (vadd (gate h 2 gi) (vmul r (gate h 2 gh))) in
      (vadd (vmul (map (sub one) z) n) (vmul z (fst st)), snd st)
  end.

(** Run one direction over a sequence: the hidden state after each step,
    and the final state. *)
Fixpoint scan (step : list R -> state -> state) (st : state)
  (xs : list (list R)) : list (list R) * state :=
  match xs with
  | [] => ([], st)
  | x :: xs' =>
      let st' := step x st in
      let rest := scan step st' xs' in
      (fst st' :: fst rest, snd rest)
  end.

(** One sequence, both directions: per step the forward output followed by
    the backward one. *)
Definition run_row (r : t) (init : state * state) (xs : list (list R))
  : list (list R) * (state * state) :=
  let f := scan (cell (kind r) (hidden_size r) (l0 r)) (fst init) xs in
  match l0_reverse r with
  | Some w =>
      let b := scan (cell (kind r) (hidden_size r) w) (snd init) (rev xs) in
      (map (fun p => fst p ++ snd p) (combine (fst f) (rev (fst b))),
       (snd f, snd b))
  | None => (fst f, (snd f, snd init))
  end.

(** The outputs of one row that starts from the zero state, laid out as
    storage. *)
Definition row_output (r : t) (L : nat) (row : list R) : list R :=
  concat (fst (run_row r (zero_state (hidden_size r),
                          zero_state (hidden_size r))
                       (chunks L (input_size r) row))).

(** [forward(input, hx=None)]: the output tensor and the final states, one
    per row.  With [hx = None] every row starts from the zero state. *)
Definition forward (r : t) (x : tensor R) (hx : option (list (state * state)))
  : result (tensor R * list (state * state)) :=
  match shape x with
  | [B; L; Hin] =>
      if Hin =? input_size r
      then
        let h0 := match hx with
                  | Some s => s
                  | None => repeat (zero_state (hidden_size r),
                                    zero_state (hidden_size r)) B
                  end in
        if length h0 =? B
        then
          let rows :=
            map (fun ri => run_row r (snd ri) (chunks L Hin (fst ri)))
                (combine (chunks B (L * Hin) (data x)) h0) in
          Ok ({| shape := [B; L; num_directions r * hidden_size r];
                 data := concat (map (fun o => concat (fst o)) rows) |},
              map snd rows)
        else Err RuntimeError
      else Err RuntimeError
  | _ => Err RuntimeError
  end.
End Def.
Arguments weights : clear implicits.
Arguments t : clear implicits.
Arguments state : clear implicits.
End RNNBase.

(** ** Parameter initialisation

    torch draws the initial weights from its random generator.  The
    generator is threaded explicitly: a stream of scalars and a position. *)

Record generator (R : Type) : Type := mk_generator {
  stream : nat -> R;
  position : nat
}.

Section Draw.
Context {R : Type} `{Scalar R}.

Definition draw (n : nat) (g : generator R) : list R * generator R :=
  (map (stream g) (seq (position g) n),
   {| stream := stream g; position := position g + n |}).

Definition draw_matrix (rows cols : nat) (g : generator R)
  : list (list R) * generator R :=
  let d := draw (rows * cols) g in
  (chunks rows cols (fst d), snd d).

Definition draw_weights (m : RNNBase.mode) (i h : nat) (g : generator R)
  : RNNBase.weights R * generator R :=
  let a := draw_matrix (RNNBase.gate_size m h) i g in
  let b := draw_matrix (RNNBase.gate_size m h) h (snd a) in
  let c := draw (RNNBase.gate_size m h) (snd b) in
  let d := draw (RNNBase.gate_size m h) (snd c) in
  (RNNBase.mk_weights (fst a) (fst b) (fst c) (fst d), snd d).

(** The constructor of [nn.RNN], [nn.LSTM], [nn.GRU]: [ValueError] when
    [hidden_size] or [input_size] is not positive. *)
Definition RNNBase_init (m : RNNBase.mode) (i h : nat) (bidirectional : bool)
  (g : generator R) : result (RNNBase.t R * generator R) :=
  if (h =? 0) || (i =? 0)
  then Err ValueError
  else
    let f := draw_weights m i h g in
    if bidirectional
    then let b := draw_weights m i h (snd f) in
         Ok (RNNBase.mk m i h true (fst f) (Some (fst b)), snd b)
    else Ok (RNNBase.mk m i h false (fst f) None, snd f).

Definition Linear_init (i o : nat) (g : generator R)
  : Linear.t R * generator R :=
  let w := draw_matrix o i g in
  let b := draw o (snd w) in
  (Linear.mk i o (fst w) (fst b), snd b).
End Draw.

(** ** [class RNNModule] *)

Module RNNModule.
Section Def.
Context {R : Type} `{Scalar R}.

Record t : Type := mk {
  groupnorm : GroupNorm.t R;
  rnn : RNNBase.t R;
  fc : Linear.t R
}.

(** [getattr(nn, rnn_type)], for the three recurrent classes of
    [torch.nn].  Every other name is outside the model: it is reported as
    [AttributeError], which is what the code raises for a name [torch.nn]
    does not have (the default ['lstm'] is one), but [torch.nn] has other
    names, some of which accept the constructor call.  The theorems below
    take a supported name. *)
Definition rnn_class (rnn_type : string) : result RNNBase.mode :=
  if String.eqb rnn_type "RNN" then Ok RNNBase.RNN_TANH
  else if String.eqb rnn_type "LSTM" then Ok RNNBase.LSTM
  else if String.eqb rnn_type "GRU" then Ok RNNBase.GRU
  else Err AttributeError.

Definition init (group_dim_size input_dim_size hidden_dim_size : nat)
  (rnn_type : string) (bidirectional : bool) (g : generator R)
  : result (t * generator R) :=
  let groupnorm := GroupNorm.init group_dim_size in
  m <- rnn_class rnn_type ;;
  r <- RNNBase_init m input_dim_size hidden_dim_size bidirectional g ;;
  let l := Linear_init
             (if bidirectional then hidden_dim_size * 2 else hidden_dim_size)
             input_dim_size (snd r) in
  Ok (mk groupnorm (fst r) (fst l), snd l).

Definition forward (self : t) (x : tensor R) : result (tensor R) :=
  match shape x with
  | [B; K; T; N] =>
      out <- GroupNorm.forward (groupnorm self) x ;;
      out <- view out [B * K; T; N] ;;
      '(out, _) <- RNNBase.forward (rnn self) out None ;;
      out <- Linear.forward (fc self) out ;;
      out <- view out [B; K; T; N] ;;
      out <- tensor_add out x ;;
      permute_0213 out
  | _ => Err ValueError
  end.




(** The storage after each step of the normalise-recur-project path, on a
    batch of [B] samples of shape [(K, T, N)]. *)
Definition norm_data (self : t) (B K T N : nat) (d : list R) : list R :=
  per_chunk B (K * (T * N))
    (fun s => GroupNorm.affine (groupnorm self) (T * N)
                (GroupNorm.normalize s))
    d.

Definition recur_data (self : t) (B K T N : nat) (d : list R) : list R :=
  per_chunk (B * K) (T * N) (RNNBase.row_output (rnn self) T) d.

Definition proj_data (self : t) (B K T : nat) (d : list R) : list R :=
  per_chunk (B * K * T) (Linear.in_features (fc self))
    (Linear.apply (fc self)) d.

Definition branch_data (self : t) (B K T N : nat) (d : list R) : list R :=
  proj_data self B K T (recur_data self B K T N (norm_data self B K T N d)).

Definition residual_data (self : t) (B K T N : nat) (d : list R) : list R :=
  vadd (branch_data self B K T N d) d.

Definition forward_data (self : t) (B K T N : nat) (d : list R) : list R :=
  per_chunk B (K * (T * N)) (swap_axes K T N) (residual_data self B K T N d).

(** The parameters have the shapes [init] gives them. *)
Definition wf (group_dim_size input_dim_size hidden_dim_size : nat)
  (bidirectional : bool) (self : t) : Prop :=
  GroupNorm.num_channels (groupnorm self) = group_dim_size /\
  GroupNorm.wf (groupnorm self) /\
  RNNBase.input_size (rnn self) = input_dim_size /\
  RNNBase.hidden_size (rnn self) = hidden_dim_size /\
  RNNBase.bidirectional (rnn self) = bidirectional /\
  RNNBase.wf (rnn self) /\
  Linear.in_features (fc self)
    = (if bidirectional then hidden_dim_size * 2 else hidden_dim_size) /\
  Linear.out_features (fc self) = input_dim_size /\
  Linear.wf (fc self).
End Def.
Arguments t : clear implicits.
End RNNModule.

(** ** [class BandSequenceModelModule] *)

Module BandSequenceModelModule.
Section Def.
Context {R : Type} `{Scalar R}.

(** [self.bsrnn]: a [ModuleList] of [nn.Sequential]s. *)
Record t : Type := mk {
  bsrnn : list (list (RNNModule.t R))
}.

(** The body of [for _ in range(num_layers)], run [n] times. *)
Fixpoint build (n : nat) (k_subbands t_timesteps input_dim_size
  hidden_dim_size : nat) (rnn_type : string) (bidirectional : bool)
  (g : generator R) : result (list (list (RNNModule.t R)) * generator R) :=
  match n with
  | 0 => Ok ([], g)
  | S n' =>
      '(rnn_across_t, g1) <-
        RNNModule.init k_subbands input_dim_size hidden_dim_size
                       rnn_type bidirectional g ;;
      '(rnn_across_k, g2) <-
        RNNModule.init t_timesteps input_dim_size hidden_dim_size
                       rnn_type bidirectional g1 ;;
      '(rest, g3) <-
        build n' k_subbands t_timesteps input_dim_size hidden_dim_size
              rnn_type bidirectional g2 ;;
      Ok ([rnn_across_t; rnn_across_k] :: rest, g3)
  end.

(** [range(num_layers)] is empty when [num_layers <= 0]. *)
Definition init (k_subbands t_timesteps input_dim_size hidden_dim_size : nat)
  (rnn_type : string) (bidirectional : bool) (num_layers : Z)
  (g : generator R) : result (t * generator R) :=
  '(l, g') <- build (Z.to_nat num_layers) k_subbands t_timesteps
                    input_dim_size hidden_dim_size rnn_type bidirectional g ;;
  Ok (mk l, g').

(** [nn.Sequential.forward]. *)
Fixpoint sequential (ms : list (RNNModule.t R)) (x : tensor R)
  : result (tensor R) :=
  match ms with
  | [] => Ok x
  | m :: ms' => y <- RNNModule.forward m x ;; sequential ms' y
  end.

(** [for i in range(len(self.bsrnn)): x = self.bsrnn[i](x)]. *)
Fixpoint loop (self : t) (range : list nat) (x : tensor R)
  : result (tensor R) :=
  match range with
  | [] => Ok x
  | i :: range' =>
      match nth_error (bsrnn self) i with
      | Some block => y <- sequential block x ;; loop self range' y
      | None => Err IndexError
      end
  end.

Definition forward (self : t) (x : tensor R) : result (tensor R) :=
  loop self (seq 0 (length (bsrnn self))) x.

(** The same loop by recursion on the list of blocks. *)
Fixpoint run (blocks : list (list (RNNModule.t R))) (x : tensor R)
  : result (tensor R) :=
  match blocks with
  | [] => Ok x
  | block :: blocks' => y <- sequential block x ;; run blocks' y
  end.

(** The storage a [Sequential] of blocks returns: every block leaves the
    group and sequence axes exchanged for the next one. *)
Fixpoint sequential_data (ms : list (RNNModule.t R)) (B K T N : nat)
  (d : list R) : list R :=
  match ms with
  | [] => d
  | m :: ms' =>
      sequential_data ms' B T K N (RNNModule.forward_data m B K T N d)
  end.

Fixpoint stack_data (blocks : list (list (RNNModule.t R))) (B K T N : nat)
  (d : list R) : list R :=
  match blocks with
  | [] => d
  | block :: blocks' =>
      stack_data blocks' B K T N (sequential_data block B K T N d)
  end.

(** A pair of blocks shaped as [init] shapes them. *)
Definition pair_wf (k_subbands t_timesteps input_dim_size hidden_dim_size : nat)
  (bidirectional : bool) (block : list (RNNModule.t R)) : Prop :=
  exists a b, block = [a; b] /\
    RNNModule.wf k_subbands input_dim_size hidden_dim_size bidirectional a /\
    RNNModule.wf t_timesteps input_dim_size hidden_dim_size bidirectional b.

Definition wf (k_subbands t_timesteps input_dim_size hidden_dim_size : nat)
  (bidirectional : bool) (self : t) : Prop :=
  Forall (pair_wf k_subbands t_timesteps input_dim_size hidden_dim_size
                  bidirectional)
         (bsrnn self).
End Def.
Arguments t : clear implicits.
End BandSequenceModelModule.

(** ** [PLModel.compute_losses] *)

Module PLModel.
Section Def.
Context {R : Type} `{Scalar R}.

(** A complex tensor: [.real] and [.imag] share the shape. *)
Record complex_tensor : Type := mk_complex {
  cshape : list nat;
  re : list R;
  im : list R
}.

Definition real (z : complex_tensor) : tensor R :=
  {| shape := cshape z; data := re z |}.

Definition imag (z : complex_tensor) : tensor R :=
  {| shape := cshape z; data := im z |}.

(** Mean absolute error of two storages. *)
Definition mae (a b : list R) : R :=
  div (vsum (map (fun p => abs (sub (fst p) (snd p))) (combine a b)))
      (of_nat (length a)).

(** [nn.L1Loss()] with the default [reduction='mean'], on tensors of one
    shape.  On two different shapes torch broadcasts when it can; that is
    outside the model, which is stricter and reports [RuntimeError]: the
    theorems below stay on equal shapes. *)
Definition L1Loss (input target : tensor R) : result R :=
  if shape_eqb (shape input) (shape target)
  then Ok (mae (data input) (data target))
  else Err RuntimeError.

(** Python's [sum(values)]: starts from the integer [0]; [0 + v] on a
    tensor [v] is [v.__radd__(0)], that is [v + 0]. *)
Definition py_sum (values : list R) : R :=
  match values with
  | [] => zero
  | v :: rest => fold_left add rest (add v zero)
  end.

Definition compute_losses (tgt_freq_hat tgt_freq : complex_tensor)
  (tgt_time_hat tgt_time : tensor R) : result (R * list (string * R)) :=
  lossR <- L1Loss (real tgt_freq_hat) (real tgt_freq) ;;
  lossI <- L1Loss (imag tgt_freq_hat) (imag tgt_freq) ;;
  lossT <- L1Loss tgt_time_hat tgt_time ;;
  let loss_dict := [("lossSpecR"%string, lossR);
                    ("lossSpecI"%string, lossI);
                    ("lossTime"%string, lossT)] in
  let loss := py_sum (map snd loss_dict) in
  Ok (loss, loss_dict).
End Def.
Arguments complex_tensor : clear implicits.
End PLModel.

(** ** An integer instance, for concrete runs

    Exact integer arithmetic; the transcendental functions are replaced by
    their piecewise-constant and clamped stand-ins. *)

#[export] Instance Scalar_Z : Scalar Z := {|
  zero := 0%Z;
  one := 1%Z;
  add := Z.add;
  sub := Z.sub;
  mul := Z.mul;
  div := Z.div;
  sqrt := Z.sqrt;
  tanh := fun z => Z.max (-1) (Z.min 1 z);
  sigmoid := fun z => if (0 <=? z)%Z then 1%Z else 0%Z;
  abs := Z.abs;
  of_nat := Z.of_nat;
  eps := 0%Z
|}.

(** Concrete modules and tensors over the integers. *)
Module Examples.
Import RNNBase.

Definition const_weights (c : Z) (m : mode) (i h : nat) : weights Z :=
  mk_weights (repeat (repeat c i) (gate_size m h))
             (repeat (repeat c h) (gate_size m h))
             (repeat c (gate_size m h))
             (repeat c (gate_size m h)).

(** A block all of whose recurrent and projection parameters equal [c]. *)
Definition const_block (c : Z) (m : mode) (group n h : nat) (bd : bool)
  : RNNModule.t Z :=
  RNNModule.mk
    (GroupNorm.init group)
    (RNNBase.mk m n h bd (const_weights c m n h)
       (if bd then Some (const_weights c m n h) else None))
    (Linear.mk (if bd then h * 2 else h) n
       (repeat (repeat c (if bd then h * 2 else h)) n)
       (repeat c n)).


(** Blocks for [K = 2], [T = 3], [N = 1] with non-zero weights. *)
Definition block_k : RNNModule.t Z := const_block 1 GRU 2 1 2 true.
Definition block_t : RNNModule.t Z := const_block 1 GRU 3 1 2 true.

Definition stack_kt : BandSequenceModelModule.t Z :=
  BandSequenceModelModule.mk [[block_k; block_t]; [block_k; block_t]].


(** Shape [(1, 2, 3, 1)]. *)
Definition x_23 : tensor Z :=
  {| shape := [1; 2; 3; 1]; data := [1; 2; 3; 4; 5; 6]%Z |}.


(** Shape [(1, 3, 3, 1)]: the group axis does not match [block_k]. *)
Definition x_33 : tensor Z :=
  {| shape := [1; 3; 3; 1]; data := [1; 2; 3; 4; 5; 6; 7; 8; 9]%Z |}.

Definition gen0 : generator Z :=
  {| stream := fun n => (Z.of_nat n - 5)%Z; position := 0 |}.

Definition z_23 : PLModel.complex_tensor Z :=
  {| PLModel.cshape := [2; 3];
     PLModel.re := [1; 2; 3; 4; 5; 6]%Z;
     PLModel.im := [0; 0; 1; 1; 2; 2]%Z |}.

Definition z_23_hat : PLModel.complex_tensor Z :=
  {| PLModel.cshape := [2; 3];
     PLModel.re := [1; 4; 3; 0; 5; 12]%Z;
     PLModel.im := [6; 0; 1; 1; 2; 8]%Z |}.

Definition t_4 : tensor Z := {| shape := [1; 4]; data := [1; 2; 3; 4]%Z |}.
Definition t_4_hat : tensor Z :=
  {| shape := [1; 4]; data := [3; 2; 3; 10]%Z |}.
End Examples.

(** ** Parameter counts

    [sum([p.numel() for p in model.parameters()])] of the script at the end
    of [bandsequence.py].  [parameters()] lists the tensors in registration
    order: the normalisation, the recurrent network, the projection. *)

Module Parameters.
Section Def.
Context {R : Type} `{Scalar R}.

(** [numel] of a matrix parameter stored by rows. *)
Definition matrix_numel (w : list (list R)) : Z :=
  fold_right (fun row acc => (Z.of_nat (length row) + acc)%Z) 0%Z w.

Definition of_weights (w : RNNBase.weights R) : list Z :=
  [matrix_numel (RNNBase.weight_ih w); matrix_numel (RNNBase.weight_hh w);
   Z.of_nat (length (RNNBase.bias_ih w));
   Z.of_nat (length (RNNBase.bias_hh w))].

Definition of_rnn (r : RNNBase.t R) : list Z :=
  of_weights (RNNBase.l0 r)
  ++ match RNNBase.l0_reverse r with
     | Some w => of_weights w
     | None => []
     end.

Definition of_block (m : RNNModule.t R) : list Z :=
  [Z.of_nat (length (GroupNorm.weight (RNNModule.groupnorm m)));
   Z.of_nat (length (GroupNorm.bias (RNNModule.groupnorm m)))]
  ++ of_rnn (RNNModule.rnn m)
  ++ [matrix_numel (Linear.weight (RNNModule.fc m));
      Z.of_nat (length (Linear.bias (RNNModule.fc m)))].

Definition of_stack (self : BandSequenceModelModule.t R) : list Z :=
  flat_map (flat_map of_block) (BandSequenceModelModule.bsrnn self).

(** Python's [sum] of a list of integers. *)
Definition total (numels : list Z) : Z := fold_left Z.add numels 0%Z.
End Def.

(** The count of one block in closed form. *)
Definition block_count (m : RNNBase.mode) (group input hidden : nat)
  (bidirectional : bool) : Z :=
  let g := Z.of_nat (RNNBase.gate_size m hidden) in
  let i := Z.of_nat input in
  let h := Z.of_nat hidden in
  let dirs := if bidirectional then 2%Z else 1%Z in
  (2 * Z.of_nat group + dirs * (g * i + g * h + 2 * g)
   + (dirs * h * i + i))%Z.
End Parameters.

(** ** Dictionaries

    A Python [dict] keeps its keys distinct and in insertion order: an
    association list. *)

Section Dict.
Context {V : Type}.

Definition dict : Type := list (string * V).

Definition dict_wf (d : dict) : Prop := NoDup (map fst d).

(** [d.get(k)]. *)
Fixpoint dict_get (d : dict) (k : string) : option V :=
  match d with
  | [] => None
  | (k', v) :: d' => if String.eqb k' k then Some v else dict_get d' k
  end.

(** [d[k] = v]: an existing key keeps its place. *)
Fixpoint dict_set (d : dict) (k : string) (v : V) : dict :=
  match d with
  | [] => [(k, v)]
  | (k', v') :: d' =>
      if String.eqb k' k then (k', v) :: d' else (k', v') :: dict_set d' k v
  end.

(** [dict(pairs)]. *)
Definition dict_of_pairs (pairs : list (string * V)) : dict :=
  fold_left (fun d kv => dict_set d (fst kv) (snd kv)) pairs [].

(** [d.pop(k, None)]: the value or [None], and the dictionary without
    the key; a missing key is no error. *)
Definition dict_pop (d : dict) (k : string) : option V * dict :=
  (dict_get d k, filter (fun kv => negb (String.eqb (fst kv) k)) d).
End Dict.
Arguments dict : clear implicits.

(** [needle in hay] on Python strings. *)
Fixpoint str_contains (needle hay : string) : bool :=
  String.prefix needle hay
  || match hay with
     | EmptyString => false
     | String _ hay' => str_contains needle hay'
     end.

(** ** The rest of [class PLModel] *)

Module PLSteps.
Section Def.
Context {R : Type} `{Scalar R}.

(** The collaborators [__init__] stores on [self]; each is an opaque
    module that returns a tensor or raises. *)
Record t : Type := mk {
  augmentations : tensor R -> result (tensor R);
  featurizer : tensor R -> result (PLModel.complex_tensor R);
  inverse_featurizer : PLModel.complex_tensor R -> nat -> result (tensor R);
  model : PLModel.complex_tensor R -> result (PLModel.complex_tensor R)
}.

(** The storage of [x[:, i]] for [x] of shape [(B, n_sources, ...)] with [inner]
    values per entry of axis 1. *)
Definition select_data {A} (B n_sources inner i : nat) (d : list A) : list A :=
  per_chunk B (n_sources * inner) (fun s => firstn inner (skipn (i * inner) s)) d.

(** [x[:, i]] for a constant [i >= 0]: [IndexError] when the tensor has
    fewer than two axes or axis 1 has no entry [i]. *)
Definition select1 (x : tensor R) (i : nat) : result (tensor R) :=
  match shape x with
  | B :: n_sources :: rest =>
      if i <? n_sources
      then Ok {| shape := B :: rest;
                 data := select_data B n_sources (numel rest) i (data x) |}
      else Err IndexError
  | _ => Err IndexError
  end.

Definition cselect1 (z : PLModel.complex_tensor R) (i : nat)
  : result (PLModel.complex_tensor R) :=
  match PLModel.cshape z with
  | B :: n_sources :: rest =>
      if i <? n_sources
      then Ok {| PLModel.cshape := B :: rest;
                 PLModel.re := select_data B n_sources (numel rest) i (PLModel.re z);
                 PLModel.im := select_data B n_sources (numel rest) i (PLModel.im z) |}
      else Err IndexError
  | _ => Err IndexError
  end.

(** [x.shape[-1]]. *)
Definition last_dim (x : tensor R) : result nat :=
  match rev (shape x) with
  | d :: _ => Ok d
  | [] => Err IndexError
  end.

Definition step (self : t) (batch : tensor R)
  : result (R * dict R) :=
  batch <- augmentations self batch ;;
  tgt_time <- select1 batch 1 ;;
  batch <- featurizer self batch ;;
  mix_freq <- cselect1 batch 0 ;;
  tgt_freq <- cselect1 batch 1 ;;
  tgt_freq_hat <- model self mix_freq ;;
  len <- last_dim tgt_time ;;
  tgt_time_hat <- inverse_featurizer self tgt_freq_hat len ;;
  PLModel.compute_losses tgt_freq_hat tgt_freq tgt_time_hat tgt_time.

(** One call of [self.log(name, value, prog_bar=...)]. *)
Record logged : Type := mk_logged {
  name : string;
  value : R;
  prog_bar : bool
}.

(** [for k in loss_dict: self.log(f"<prefix>/{k}", loss_dict[k])]. *)
Definition log_dict (prefix : string) (loss_dict : dict R) : list logged :=
  map (fun kv => mk_logged (prefix ++ "/" ++ fst kv) (snd kv) false)
      loss_dict.

(** The loss returned and the calls of [self.log], in order.  [step] runs
    first: when it raises nothing is logged. *)
Definition training_step (self : t) (batch : tensor R)
  : result (R * list logged) :=
  '(loss, loss_dict) <- step self batch ;;
  Ok (loss,
      log_dict "train" loss_dict ++ [mk_logged "train/loss" loss false]).

Definition validation_step (self : t) (batch : tensor R)
  : result (R * list logged) :=
  '(loss, loss_dict) <- step self batch ;;
  Ok (loss,
      log_dict "val" loss_dict ++ [mk_logged "val/loss" loss true]).
End Def.

Section Hooks.
Context {A V : Type}.

(** [remove_per_weight_norms(func)]: the wrapper [f]. *)
Definition remove_per_weight_norms (func : A -> dict V) : A -> dict V :=
  fun args =>
    let norms := func args in
    dict_of_pairs
      (filter (fun elem => str_contains "_total" (fst elem)) norms).

(** [tracked_gradient_global_only()] as a step on the global
    [pl.utilities.grad_norm]: the new binding of the name. *)
Definition tracked_gradient_global_only (grad_norm : A -> dict V)
  : A -> dict V :=
  remove_per_weight_norms grad_norm.

(** [get_progress_bar_dict], given what the parent class returns. *)
Definition get_progress_bar_dict (super_dict : dict V) : dict V :=
  snd (dict_pop super_dict "v_num").
End Hooks.
End PLSteps.

(** The laws of exact arithmetic a vanishing error needs. *)
Class ScalarMetricLaws (R : Type) `{Scalar R} : Prop := {
  sub_diag : forall x : R, sub x x = zero;
  abs_zero : abs zero = zero;
  div_zero_l : forall n : nat, div zero (of_nat (S n)) = zero
}.
Arguments ScalarMetricLaws R {_}.

(** More concrete values over the integers. *)
Module MoreExamples.
Import Examples.


(** Shape [(1, 2, 0, 1)]: group and feature axes match [block_k], the
    sequence axis is empty. *)
Definition x_empty : tensor Z := {| shape := [1; 2; 0; 1]; data := [] |}.


(** A batch [(1, 2, 1, 3)]: mixture and target, one channel. *)
Definition batch_2 : tensor Z :=
  {| shape := [1; 2; 1; 3]; data := [5; 7; 9; 1; 2; 3]%Z |}.

(** A batch [(1, 1, 1, 3)] with a single source. *)
Definition batch_1 : tensor Z :=
  {| shape := [1; 1; 1; 3]; data := [5; 7; 9]%Z |}.

(** Collaborators that stand in for the real ones: no augmentation, a
    featurizer that copies the signal into the real part, a model that
    returns its input. *)
Definition toy : PLSteps.t (R := Z) :=
  PLSteps.mk
    (fun x => Ok x)
    (fun x => Ok {| PLModel.cshape := shape x; PLModel.re := data x;
                    PLModel.im := map (fun _ => 0%Z) (data x) |})
    (fun z _ => Ok {| shape := PLModel.cshape z; data := PLModel.re z |})
    (fun z => Ok z).

(** The norms a gradient tracker reports. *)
Definition norms : dict Z :=
  [("grad_2.0_norm/fc.weight"%string, 3%Z);
   ("grad_2.0_norm_total"%string, 5%Z);
   ("grad_2.0_norm/fc.bias"%string, 4%Z)].

Definition bar : dict Z := [("loss"%string, 1%Z); ("v_num"%string, 7%Z)].
End MoreExamples.

(** * Facts about the storage operations *)

Section StorageFacts.
Context {A : Type}.
Implicit Types (l : list A) (ls : list (list A)).

Lemma length_chunks c n l : length (chunks c n l) = c.
Proof.
  revert l; induction c as [|c IH]; intros l; simpl; [reflexivity|].
  now rewrite IH.
Qed.

Lemma chunks_each c n l :
  length l = c * n -> Forall (fun ch => length ch = n) (chunks c n l).
Proof.
  revert l; induction c as [|c IH]; intros l Hl; simpl; constructor.
  - rewrite length_firstn. simpl in Hl. lia.
  - apply IH. rewrite length_skipn. simpl in Hl. lia.
Qed.

Lemma concat_chunks c n l :
  length l = c * n -> concat (chunks c n l) = l.
Proof.
  revert l; induction c as [|c IH]; intros l Hl; simpl.
  - destruct l; [reflexivity|discriminate].
  - rewrite IH; [apply firstn_skipn|].
    rewrite length_skipn. simpl in Hl. lia.
Qed.



Lemma length_concat_each n ls :
  Forall (fun ch => length ch = n) ls -> length (concat ls) = length ls * n.
Proof.
  induction 1 as [|ch ls Hch _ IH]; simpl; [reflexivity|].
  rewrite length_app. lia.
Qed.





End StorageFacts.

Section PerChunkFacts.
Context {A B : Type}.
Implicit Types (l : list A) (f g : list A -> list B).

Lemma length_per_chunk f c n m l :
  (forall ch, length ch = n -> length (f ch) = m) ->
  length l = c * n ->
  length (per_chunk c n f l) = c * m.
Proof.
  intros Hf Hl. unfold per_chunk.
  rewrite (length_concat_each (n:=m)).
  - now rewrite length_map, length_chunks.
  - apply Forall_map. eapply Forall_impl; [|apply chunks_each, Hl].
    exact Hf.
Qed.



Lemma per_chunk_ext f g c n l :
  length l = c * n ->
  (forall ch, length ch = n -> f ch = g ch) ->
  per_chunk c n f l = per_chunk c n g l.
Proof.
  intros Hl Hfg. unfold per_chunk. f_equal.
  apply map_ext_Forall.
  eapply Forall_impl; [|apply chunks_each, Hl]. exact Hfg.
Qed.

End PerChunkFacts.

(** *** Transposition *)

Section TransposeFacts.
Context {A : Type}.
Implicit Types (m : list (list A)).

Lemma pick_nth_error j (row : list A) :
  firstn 1 (skipn j row)
  = match nth_error row j with Some a => [a] | None => [] end.
Proof.
  revert row; induction j as [|j IH]; intros [|a row];
    cbn [skipn nth_error]; try reflexivity.
  apply IH.
Qed.


Lemma length_column j m :
  Forall (fun row => j < length row) m -> length (column j m) = length m.
Proof.
  induction 1 as [|row m Hrow _ IH]; [reflexivity|].
  unfold column in *. cbn [flat_map]. rewrite length_app, IH, pick_nth_error.
  destruct (nth_error row j) eqn:E; [reflexivity|].
  apply nth_error_None in E. lia.
Qed.

Lemma transpose_each cols m :
  Forall (fun row => length row = cols) m ->
  Forall (fun col => length col = length m) (transpose cols m).
Proof.
  intros Hm. unfold transpose. apply Forall_map, Forall_forall.
  intros j Hj. apply in_seq in Hj. apply length_column.
  eapply Forall_impl; [|exact Hm]. simpl. intros; lia.
Qed.

Lemma length_transpose cols m : length (transpose cols m) = cols.
Proof. unfold transpose. now rewrite length_map, length_seq. Qed.



Lemma transpose_rows rows cols m :
  length m = rows ->
  Forall (fun row => length row = cols) m ->
  Forall (fun col => length col = rows) (transpose cols m).
Proof. intros <-. apply transpose_each. Qed.

End TransposeFacts.


(** * The integer instance satisfies the laws *)

Lemma ScalarLaws_Z : ScalarLaws Z.
Proof.
  split; intros; cbn; lia.
Qed.
#[export] Existing Instance ScalarLaws_Z.

(** * Facts about the layers *)

Section VectorFacts.
Context {R : Type} `{Scalar R}.
Implicit Types (a b : list R).

Lemma length_vadd a b : length (vadd a b) = Nat.min (length a) (length b).
Proof. unfold vadd. now rewrite length_map, length_combine. Qed.

Lemma length_vmul a b : length (vmul a b) = Nat.min (length a) (length b).
Proof. unfold vmul. now rewrite length_map, length_combine. Qed.

Lemma length_matvec (w : list (list R)) a : length (matvec w a) = length w.
Proof. unfold matvec. now rewrite length_map. Qed.



End VectorFacts.

Create Rewrite HintDb len.
#[local] Hint Rewrite @length_vadd @length_vmul @length_matvec @length_map
  @length_firstn @length_skipn @repeat_length @length_app @length_chunks
  @length_combine @length_rev : len.

Section GroupNormFacts.
Context {R : Type} `{Scalar R}.

Lemma length_normalize (s : list R) :
  length (GroupNorm.normalize s) = length s.
Proof. unfold GroupNorm.normalize. now rewrite !length_map. Qed.

Lemma length_affine (g : GroupNorm.t R) inner s :
  GroupNorm.wf g ->
  length s = GroupNorm.num_channels g * inner ->
  length (GroupNorm.affine g inner s) = GroupNorm.num_channels g * inner.
Proof.
  intros [Hw Hb] Hs. unfold GroupNorm.affine.
  rewrite (length_concat_each (n:=inner)).
  - autorewrite with len. lia.
  - apply Forall_map, Forall_forall. intros [ch wb] Hin. cbn [fst snd].
    rewrite length_map. apply in_combine_l in Hin.
    pose proof (chunks_each _ _ _ Hs) as Hall.
    eapply Forall_forall in Hall; eauto.
Qed.




End GroupNormFacts.

Section LinearFacts.
Context {R : Type} `{Scalar R}.

Lemma length_apply (l : Linear.t R) v :
  Linear.wf l -> length (Linear.apply l v) = Linear.out_features l.
Proof.
  intros (Hw & _ & Hb). unfold Linear.apply.
  autorewrite with len. lia.
Qed.

Lemma vsum_zeros (v : list R) `{!ScalarLaws R} :
  Forall (fun a => a = zero) v -> vsum v = zero.
Proof.
  unfold vsum. induction 1 as [|a v Ha _ IH]; simpl; [reflexivity|].
  subst a. now rewrite add_zero_l.
Qed.




End LinearFacts.

Section RNNFacts.
Context {R : Type} `{Scalar R}.
Import RNNBase.

Lemma zero_state_wf h : state_wf h (zero_state h).
Proof. split; apply repeat_length. Qed.

Lemma cell_wf m i h (w : weights R) x st :
  weights_wf m i h w -> state_wf h st -> state_wf h (cell m h w x st).
Proof.
  intros (Hih & _ & Hhh & _ & Hbi & Hbh) [Hh Hc].
  unfold cell, gate.
  destruct m; unfold gate_size in *; split; cbn [fst snd]; try assumption.
  all: autorewrite with len; rewrite ?Hih, ?Hbi, ?Hhh, ?Hbh, ?Hh, ?Hc.
  all: repeat first [rewrite Nat.min_id | rewrite Nat.min_l by lia].
  all: reflexivity.
Qed.

Lemma scan_spec (step : list R -> state R -> state R) h xs :
  (forall x st, state_wf h st -> state_wf h (step x st)) ->
  forall st, state_wf h st ->
    length (fst (scan step st xs)) = length xs /\
    Forall (fun v => length v = h) (fst (scan step st xs)) /\
    state_wf h (snd (scan step st xs)).
Proof.
  intros Hstep. induction xs as [|x xs IH]; intros st Hst; cbn [scan fst snd].
  - repeat split; try constructor; apply Hst.
  - destruct (IH (step x st) (Hstep _ _ Hst)) as (Hl & Hall & Hfin).
    repeat split; simpl; try (constructor; [apply Hstep, Hst|]);
      try apply Hfin; auto.
Qed.

Lemma run_row_spec (r : t R) init xs :
  wf r -> state_wf (hidden_size r) (fst init) ->
  state_wf (hidden_size r) (snd init) ->
  length (fst (run_row r init xs)) = length xs /\
  Forall (fun v => length v = num_directions r * hidden_size r)
         (fst (run_row r init xs)).
Proof.
  intros [Hf Hb] Hi1 Hi2. unfold run_row, num_directions.
  assert (Hstep : forall w, weights_wf (kind r) (input_size r)
                              (hidden_size r) w ->
            forall x st, state_wf (hidden_size r) st ->
              state_wf (hidden_size r) (cell (kind r) (hidden_size r) w x st))
    by (intros; eapply cell_wf; eauto).
  destruct (scan_spec (cell (kind r) (hidden_size r) (l0 r)) xs
              (Hstep _ Hf) Hi1) as (Hl & Hall & _).
  destruct (l0_reverse r) as [w|].
  - destruct Hb as [-> Hw].
    destruct (scan_spec (cell (kind r) (hidden_size r) w) (rev xs)
                (Hstep _ Hw) Hi2) as (Hl' & Hall' & _).
    rewrite length_rev in Hl'.
    cbn [fst snd]. split.
    + autorewrite with len. lia.
    + apply Forall_map, Forall_forall. intros [a b] Hin. cbn [fst snd].
      rewrite Forall_forall in Hall, Hall'.
      rewrite length_app, (Hall a), (Hall' b); [lia| |].
      * apply in_combine_r in Hin. now apply in_rev.
      * now apply in_combine_l in Hin.
  - rewrite Hb. cbn [fst snd]. split; [exact Hl|].
    eapply Forall_impl; [|exact Hall]. simpl. intros; lia.
Qed.


Lemma length_row_output (r : t R) L row :
  wf r -> length row = L * input_size r ->
  length (row_output r L row) = L * (num_directions r * hidden_size r).
Proof.
  intros Hr Hrow. unfold row_output.
  destruct (run_row_spec (zero_state (hidden_size r),
                          zero_state (hidden_size r))
              (chunks L (input_size r) row) Hr
              (zero_state_wf _) (zero_state_wf _)) as [Hl Hall].
  rewrite (length_concat_each Hall), Hl, length_chunks. reflexivity.
Qed.
End RNNFacts.

Section BlockFacts.
Context {R : Type} `{Scalar R}.
Import RNNModule.


Lemma wf_in_features K N Hd bd (self : t R) :
  wf K N Hd bd self ->
  Linear.in_features (fc self)
  = RNNBase.num_directions (rnn self) * RNNBase.hidden_size (rnn self).
Proof.
  intros (_ & _ & _ & Hh & Hb & _ & Hin & _).
  unfold RNNBase.num_directions. rewrite Hin, Hb, Hh.
  destruct bd; lia.
Qed.

End BlockFacts.

Section SwapFacts.
Context {A : Type}.
Implicit Types (m : list (list A)) (s : list A).

Lemma per_chunk_id c n s :
  length s = c * n -> per_chunk c n (fun ch => ch) s = s.
Proof.
  intros Hs. unfold per_chunk. rewrite map_id. now apply concat_chunks.
Qed.

Lemma Forall_column (P : A -> Prop) j m :
  Forall (Forall P) m -> Forall P (column j m).
Proof.
  intros Hm. unfold column. apply Forall_flat_map.
  eapply Forall_impl; [|exact Hm]. intros row Hrow. cbn beta.
  rewrite pick_nth_error. destruct (nth_error row j) as [a|] eqn:E;
    constructor; [|constructor].
  rewrite Forall_forall in Hrow. eapply Hrow, nth_error_In, E.
Qed.

Lemma Forall_transpose (P : A -> Prop) cols m :
  Forall (Forall P) m -> Forall (Forall P) (transpose cols m).
Proof.
  intros Hm. unfold transpose. apply Forall_map, Forall_forall.
  intros j _. now apply Forall_column.
Qed.
End SwapFacts.

Section SwapAxes.
Context {R : Type} `{Scalar R}.
Implicit Types (s : list R).

(** The [K] by [T] grid of feature vectors of one sample. *)
Lemma grid_facts K T N s :
  length s = K * (T * N) ->
  let m := map (chunks T N) (chunks K (T * N) s) in
  length m = K /\
  Forall (fun row => length row = T) m /\
  Forall (Forall (fun v => length v = N)) m.
Proof.
  intros Hs m. subst m. rewrite length_map, length_chunks.
  split; [reflexivity|]. split; apply Forall_map.
  - apply Forall_forall. intros; apply length_chunks.
  - eapply Forall_impl; [|apply chunks_each, Hs]. intros row Hrow.
    now apply chunks_each.
Qed.



Lemma length_swap_axes K T N s :
  length s = K * (T * N) -> length (swap_axes K T N s) = T * (K * N).
Proof.
  intros Hs. destruct (grid_facts K T N s Hs) as (Hl & Hrows & Hvs).
  unfold swap_axes.
  rewrite (length_concat_each (n:=N)).
  - rewrite (length_concat_each (n:=K)).
    + rewrite length_transpose. lia.
    + now apply transpose_rows.
  - apply Forall_concat. now apply Forall_transpose.
Qed.


End SwapAxes.

Section BlockData.
Context {R : Type} `{Scalar R}.
Import RNNModule.
Variables (K N Hd : nat) (bd : bool) (self : t R).
Hypothesis Hwf : wf K N Hd bd self.

Let width : nat :=
  RNNBase.num_directions (rnn self) * RNNBase.hidden_size (rnn self).

Lemma length_norm_data B T d :
  length d = B * (K * (T * N)) ->
  length (norm_data self B K T N d) = B * (K * (T * N)).
Proof.
  intros Hd'. destruct Hwf as (HK & Hg & _).
  unfold norm_data. apply length_per_chunk; [|exact Hd'].
  intros ch Hch. rewrite <- HK in *.
  apply length_affine; [exact Hg|]. now rewrite length_normalize.
Qed.

Lemma length_recur_data B T d :
  length d = B * K * (T * N) ->
  length (recur_data self B K T N d) = B * K * (T * width).
Proof.
  intros Hd'. destruct Hwf as (_ & _ & HN & _ & _ & Hr & _).
  unfold recur_data. apply length_per_chunk; [|exact Hd'].
  intros ch Hch. apply length_row_output; [exact Hr|]. now rewrite HN.
Qed.

Lemma length_proj_data B T d :
  length d = B * K * T * width ->
  length (proj_data self B K T d) = B * K * T * N.
Proof.
  intros Hd'. pose proof (wf_in_features Hwf) as Hin.
  destruct Hwf as (_ & _ & _ & _ & _ & _ & _ & Hout & Hl).
  unfold proj_data. apply length_per_chunk.
  - intros ch _. rewrite <- Hout. now apply length_apply.
  - now rewrite Hin.
Qed.

Lemma length_branch_data B T d :
  length d = B * (K * (T * N)) ->
  length (branch_data self B K T N d) = B * (K * (T * N)).
Proof.
  intros Hd'. unfold branch_data.
  rewrite length_proj_data; [ring|].
  rewrite length_recur_data; [ring|].
  rewrite length_norm_data by exact Hd'. ring.
Qed.

Lemma length_residual_data B T d :
  length d = B * (K * (T * N)) ->
  length (residual_data self B K T N d) = B * (K * (T * N)).
Proof.
  intros Hd'. unfold residual_data.
  rewrite length_vadd, length_branch_data, Hd' by exact Hd'.
  apply Nat.min_id.
Qed.

Lemma length_forward_data B T d :
  length d = B * (K * (T * N)) ->
  length (forward_data self B K T N d) = B * (T * (K * N)).
Proof.
  intros Hd'. unfold forward_data. apply length_per_chunk.
  - intros ch Hch. now apply length_swap_axes.
  - now apply length_residual_data.
Qed.




End BlockData.

(** * Facts about construction *)

Section InitFacts.
Context {R : Type} `{Scalar R}.

Lemma length_draw n (g : generator R) : length (fst (draw n g)) = n.
Proof. unfold draw. cbn [fst]. now rewrite length_map, length_seq. Qed.

Lemma draw_matrix_shape rows cols (g : generator R) :
  length (fst (draw_matrix rows cols g)) = rows /\
  Forall (fun row => length row = cols) (fst (draw_matrix rows cols g)).
Proof.
  unfold draw_matrix. cbn [fst]. split; [apply length_chunks|].
  apply chunks_each, length_draw.
Qed.

Lemma draw_weights_wf m i h (g : generator R) :
  RNNBase.weights_wf m i h (fst (draw_weights m i h g)).
Proof.
  unfold draw_weights, RNNBase.weights_wf. cbn [fst RNNBase.weight_ih
    RNNBase.weight_hh RNNBase.bias_ih RNNBase.bias_hh].
  repeat split; try apply draw_matrix_shape; apply length_draw.
Qed.

Lemma RNNBase_init_wf m i h bd (g : generator R) :
  0 < i -> 0 < h ->
  exists r g',
    RNNBase_init m i h bd g = Ok (r, g') /\
    RNNBase.kind r = m /\
    RNNBase.input_size r = i /\ RNNBase.hidden_size r = h /\
    RNNBase.bidirectional r = bd /\ RNNBase.wf r.
Proof.
  intros Hi Hh. unfold RNNBase_init, RNNBase.wf.
  replace ((h =? 0) || (i =? 0)) with false
    by (symmetry; apply orb_false_iff; split; apply Nat.eqb_neq; lia).
  destruct bd; do 2 eexists; (split; [reflexivity|]);
    cbn [fst RNNBase.kind RNNBase.input_size RNNBase.hidden_size
         RNNBase.bidirectional RNNBase.l0 RNNBase.l0_reverse];
    (split; [reflexivity|split; [reflexivity|split; [reflexivity|
      split; [reflexivity|]]]]);
    auto using draw_weights_wf.
Qed.

Lemma RNNBase_init_size_error m i h bd (g : generator R) :
  i = 0 \/ h = 0 -> RNNBase_init m i h bd g = Err ValueError.
Proof.
  intros Hz. unfold RNNBase_init.
  replace ((h =? 0) || (i =? 0)) with true; [reflexivity|].
  symmetry. apply orb_true_iff. destruct Hz as [-> | ->]; auto.
Qed.

Lemma Linear_init_wf i o (g : generator R) :
  let l := fst (Linear_init i o g) in
  Linear.in_features l = i /\ Linear.out_features l = o /\ Linear.wf l.
Proof.
  unfold Linear_init, Linear.wf.
  cbn [fst Linear.in_features Linear.out_features Linear.weight Linear.bias].
  repeat split; try apply draw_matrix_shape; apply length_draw.
Qed.

Lemma GroupNorm_init_wf c : GroupNorm.wf (GroupNorm.init (R:=R) c).
Proof. split; apply repeat_length. Qed.


Lemma RNNModule_init_kind_wf group n h ty bd m (g : generator R) :
  RNNModule.rnn_class ty = Ok m ->
  0 < n -> 0 < h ->
  exists self g',
    RNNModule.init group n h ty bd g = Ok (self, g') /\
    RNNBase.kind (RNNModule.rnn self) = m /\
    RNNModule.wf group n h bd self.
Proof.
  intros Hm Hn0 Hh0.
  unfold RNNModule.init. rewrite Hm. cbn [bind].
  destruct (@RNNBase_init_wf m n h bd g Hn0 Hh0)
    as (r & g1 & Er & Hk & Hi & Hh & Hb & Hr).
  rewrite Er. cbn [bind fst snd].
  do 2 eexists. split; [reflexivity|]. split; [exact Hk|].
  unfold RNNModule.wf. cbn [RNNModule.groupnorm RNNModule.rnn RNNModule.fc].
  match goal with
  | |- context [Linear_init ?i ?o ?g'] =>
      destruct (Linear_init_wf i o g') as (Li & Lo & Lw)
  end.
  exact (conj eq_refl (conj (GroupNorm_init_wf _) (conj Hi (conj Hh
           (conj Hb (conj Hr (conj Li (conj Lo Lw)))))))).
Qed.



Lemma build_0 k t n h ty bd (g : generator R) :
  BandSequenceModelModule.build 0 k t n h ty bd g = Ok ([], g).
Proof. reflexivity. Qed.
End InitFacts.

(** * Facts about the stack *)

Section StackFacts.
Context {R : Type} `{Scalar R}.
Import BandSequenceModelModule.

Lemma loop_run (self : t R) blocks :
  forall pre x,
    bsrnn self = pre ++ blocks ->
    loop self (seq (length pre) (length blocks)) x = run blocks x.
Proof.
  induction blocks as [|b bs IH]; intros pre x Hb; [reflexivity|].
  cbn [length seq loop run].
  rewrite Hb, nth_error_app2, Nat.sub_diag by lia. cbn [nth_error].
  destruct (sequential b x) as [y|e]; cbn [bind]; [|reflexivity].
  replace (S (length pre)) with (length (pre ++ [b]))
    by (rewrite length_app; simpl; lia).
  apply IH. now rewrite <- app_assoc.
Qed.

Lemma forward_run (self : t R) x : forward self x = run (bsrnn self) x.
Proof. unfold forward. now apply (loop_run self (bsrnn self) []). Qed.

Variables (K T N Hd : nat) (bd : bool).
Hypotheses (HK : 0 < K) (HT : 0 < T) (HN : 0 < N).
#[local] Abbreviation pair_wf := (pair_wf K T N Hd bd).


Lemma length_sequential_data block B d :
  pair_wf block ->
  length d = B * (K * (T * N)) ->
  length (sequential_data block B K T N d) = B * (K * (T * N)).
Proof.
  intros (a & b & -> & Wa & Wb) Hl. cbn [sequential_data].
  rewrite (length_forward_data Wb); [reflexivity|].
  now rewrite (length_forward_data Wa).
Qed.



Lemma length_stack_data blocks : Forall pair_wf blocks ->
  forall B d,
    length d = B * (K * (T * N)) ->
    length (stack_data blocks B K T N d) = B * (K * (T * N)).
Proof.
  induction 1 as [|block blocks Hb _ IH]; intros B d Hl; [exact Hl|].
  cbn [stack_data]. apply IH. now apply length_sequential_data.
Qed.

End StackFacts.

(** * The stack: shape, construction and zero layers *)

Section StackClaims.
Context {R : Type} `{Scalar R}.



(** C3, as the code has it.  [range(num_layers)] is empty for every
    [num_layers < 1], so construction raises nothing: it returns a stack
    with no block and leaves the generator untouched. *)
Theorem init_below_one_layer_succeeds
  (k_subbands t_timesteps input_dim_size hidden_dim_size : nat)
  (rnn_type : string) (bidirectional : bool) (num_layers : Z)
  (g : generator R) :
  (num_layers < 1)%Z ->
  BandSequenceModelModule.init k_subbands t_timesteps input_dim_size
    hidden_dim_size rnn_type bidirectional num_layers g
  = Ok (BandSequenceModelModule.mk [], g).
Proof.
  intros Hn. unfold BandSequenceModelModule.init.
  replace (Z.to_nat num_layers) with 0 by lia.
  reflexivity.
Qed.

(** C10. With [num_layers = 0] construction succeeds whatever the other
    arguments are, the stack holds no block, and its forward pass returns
    every input unchanged. *)
Theorem zero_layers_identity
  (k_subbands t_timesteps input_dim_size hidden_dim_size : nat)
  (rnn_type : string) (bidirectional : bool) (g : generator R) :
  exists self g',
    BandSequenceModelModule.init k_subbands t_timesteps input_dim_size
      hidden_dim_size rnn_type bidirectional 0 g = Ok (self, g') /\
    BandSequenceModelModule.bsrnn self = [] /\
    forall x, BandSequenceModelModule.forward self x = Ok x.
Proof.
  exists (BandSequenceModelModule.mk []), g. repeat split.
Qed.
End StackClaims.

(** * One block: the swap, the round trip, the errors, the residual *)

Section BlockClaims.
Context {R : Type} `{Scalar R}.
Import RNNModule.

Lemma shape_eqb_refl sh : shape_eqb sh sh = true.
Proof.
  unfold shape_eqb. now destruct (list_eq_dec Nat.eq_dec sh sh).
Qed.







End BlockClaims.

Section ResidualClaims.
Context {R : Type} `{Scalar R} `{!ScalarLaws R}.
Import RNNModule.



End ResidualClaims.

Section BatchClaims.
Context {R : Type} `{Scalar R}.


End BatchClaims.

Section LossClaims.
Context {R : Type} `{Scalar R} `{!ScalarLaws R}.
Import PLModel.

(** C9. On spectra of one shape and signals of one shape, the loss
    [compute_losses] returns is the sum, with no coefficient on any term,
    of exactly three mean absolute errors: between the real parts, between
    the imaginary parts, and between the time-domain signals; the
    dictionary holds the same three terms. *)
Theorem compute_losses_unweighted_sum
  (tgt_freq_hat tgt_freq : complex_tensor R)
  (tgt_time_hat tgt_time : tensor R) :
  cshape tgt_freq_hat = cshape tgt_freq ->
  shape tgt_time_hat = shape tgt_time ->
  let lossR := mae (re tgt_freq_hat) (re tgt_freq) in
  let lossI := mae (im tgt_freq_hat) (im tgt_freq) in
  let lossT := mae (data tgt_time_hat) (data tgt_time) in
  compute_losses tgt_freq_hat tgt_freq tgt_time_hat tgt_time
  = Ok (add (add lossR lossI) lossT,
        [("lossSpecR"%string, lossR); ("lossSpecI"%string, lossI);
         ("lossTime"%string, lossT)]).
Proof.
  intros Hf Ht. unfold compute_losses, L1Loss, real, imag.
  cbn [shape data]. rewrite Hf, Ht, !shape_eqb_refl.
  cbn [bind map snd py_sum fold_left]. now rewrite add_zero_r.
Qed.
End LossClaims.

(** * The theorems at concrete inputs *)

Module Witnesses.
Import Examples MoreExamples.


Example permute_0213_run :
  permute_0213 x_23
  = Ok {| shape := [1; 3; 2; 1]; data := [1; 4; 2; 5; 3; 6]%Z |}.
Proof. reflexivity. Qed.

Example forward_run_block :
  RNNModule.forward block_k x_23
  = Ok {| shape := [1; 3; 2; 1]; data := [2; 5; 3; 6; 4; 7]%Z |}.
Proof. reflexivity. Qed.

Example forward_run_group_mismatch :
  RNNModule.forward block_k x_33 = Err RuntimeError.
Proof. reflexivity. Qed.

Example forward_run_not_4d :
  RNNModule.forward block_k {| shape := [2; 3]; data := data x_23 |}
  = Err ValueError.
Proof. reflexivity. Qed.

Example stack_run :
  BandSequenceModelModule.forward stack_kt x_23
  = Ok {| shape := [1; 2; 3; 1]; data := [5; 6; 7; 8; 9; 10]%Z |}.
Proof. reflexivity. Qed.

Example init_run_lowercase_name :
  RNNModule.init 2 1 2 "lstm" true gen0 = Err AttributeError.
Proof. reflexivity. Qed.


(** C3 as stated fails: with [num_layers = 0] construction returns a
    stack, no exception. *)
Lemma init_zero_layers_no_error :
  BandSequenceModelModule.init 41 259 128 256 "LSTM" true 0 gen0
  = Ok (BandSequenceModelModule.mk [], gen0) /\
  forall e,
    BandSequenceModelModule.init 41 259 128 256 "LSTM" true 0 gen0
    <> Err e.
Proof.
  split; [reflexivity|]. intros e. discriminate.
Qed.

Lemma init_below_one_layer_succeeds_witness :
  BandSequenceModelModule.init 41 259 128 256 "LSTM" true (-3) gen0
  = Ok (BandSequenceModelModule.mk [], gen0).
Proof.
  apply (@init_below_one_layer_succeeds Z _ 41 259 128 256 "LSTM" true (-3)%Z
           gen0).
  lia.
Defined.








Lemma compute_losses_unweighted_sum_witness :
  PLModel.compute_losses z_23_hat z_23 t_4_hat t_4
  = Ok (6%Z, [("lossSpecR"%string, 2%Z); ("lossSpecI"%string, 2%Z);
              ("lossTime"%string, 2%Z)]).
Proof.
  exact (@compute_losses_unweighted_sum Z _ _ z_23_hat z_23 t_4_hat t_4
           eq_refl eq_refl).
Defined.
End Witnesses.

(** * More about the stack *)

Section StackMore.
Context {R : Type} `{Scalar R}.
Import BandSequenceModelModule.

Lemma run_app (l1 l2 : list (list (RNNModule.t R))) x :
  run (l1 ++ l2) x = (y <- run l1 x ;; run l2 y).
Proof.
  revert x; induction l1 as [|b l1 IH]; intros x; [reflexivity|].
  cbn [app run]. destruct (sequential b x) as [y|e]; cbn [bind];
    [apply IH|reflexivity].
Qed.

(** X4. The forward pass of a stack whose block list is [l1 ++ l2] is the
    forward pass over [l1] followed by the forward pass over [l2], an
    error of the first part ending the run. *)
Theorem forward_splits_at_any_layer (l1 l2 : list (list (RNNModule.t R)))
  (x : tensor R) :
  forward (mk (l1 ++ l2)) x
  = (y <- forward (mk l1) x ;; forward (mk l2) y).
Proof.
  rewrite !forward_run. cbn [bsrnn]. rewrite run_app.
  destruct (run l1 x) as [y|e]; cbn [bind]; [|reflexivity].
  now rewrite forward_run.
Qed.


End StackMore.

Section StackZero.
Context {R : Type} `{Scalar R} `{!ScalarLaws R}.
Import BandSequenceModelModule.




End StackZero.

(** * The number of parameters *)

Section ParameterCount.
Context {R : Type} `{Scalar R}.
Import Parameters.
Open Scope Z_scope.

Lemma fold_add_acc (l : list Z) (a : Z) :
  fold_left Z.add l a = a + fold_left Z.add l 0.
Proof.
  revert a; induction l as [|z l IH]; intros a; cbn [fold_left]; [lia|].
  rewrite (IH (a + z)), (IH (0 + z)). lia.
Qed.

Lemma total_app (a b : list Z) : total (a ++ b) = total a + total b.
Proof.
  unfold total. rewrite fold_left_app. apply fold_add_acc.
Qed.

Lemma total_cons (z : Z) (l : list Z) : total (z :: l) = z + total l.
Proof. unfold total. cbn [fold_left]. apply fold_add_acc. Qed.

Lemma matrix_numel_each (w : list (list R)) (c : nat) :
  Forall (fun row => length row = c) w ->
  matrix_numel w = Z.of_nat (length w) * Z.of_nat c.
Proof.
  induction 1 as [|row w Hrow _ IH]; cbn [matrix_numel fold_right length];
    [reflexivity|].
  fold (matrix_numel w). rewrite IH, Hrow. lia.
Qed.

Lemma total_of_weights m i h (w : RNNBase.weights R) :
  RNNBase.weights_wf m i h w ->
  total (of_weights w)
  = Z.of_nat (RNNBase.gate_size m h) * Z.of_nat i
    + Z.of_nat (RNNBase.gate_size m h) * Z.of_nat h
    + 2 * Z.of_nat (RNNBase.gate_size m h).
Proof.
  intros (Hih & Rih & Hhh & Rhh & Hbi & Hbh). unfold of_weights.
  rewrite !total_cons, (matrix_numel_each Rih), (matrix_numel_each Rhh).
  rewrite Hih, Hhh, Hbi, Hbh. unfold total. cbn [fold_left]. lia.
Qed.

Lemma total_of_block m c n h bd (self : RNNModule.t R) :
  RNNModule.wf c n h bd self ->
  RNNBase.kind (RNNModule.rnn self) = m ->
  total (of_block self) = block_count m c n h bd.
Proof.
  intros (Hc & [Hgw Hgb] & Hi & Hh & Hb & [Hl0 Hrev] & Hin & Hout
          & (Hfw & Hfr & Hfb)) Hm.
  unfold of_block, of_rnn, block_count.
  rewrite !total_app, !total_cons, (matrix_numel_each Hfr).
  rewrite (total_of_weights Hl0), Hgw, Hgb, Hfw, Hfb, Hc, Hin, Hout.
  rewrite Hm, Hi, Hh in *.
  destruct (RNNBase.l0_reverse (RNNModule.rnn self)) as [w|].
  - destruct Hrev as [Hbt Hw]. rewrite (total_of_weights Hw).
    rewrite <- Hb, Hbt. unfold total. cbn [fold_left].
    rewrite Nat2Z.inj_mul. simpl (Z.of_nat 2). ring.
  - rewrite <- Hb, Hrev. unfold total. cbn [fold_left]. ring.
Qed.

Lemma build_count L k t n h ty bd m :
  RNNModule.rnn_class ty = Ok m ->
  (0 < n)%nat -> (0 < h)%nat ->
  forall g : generator R,
  exists blocks g',
    BandSequenceModelModule.build L k t n h ty bd g = Ok (blocks, g') /\
    total (flat_map (flat_map of_block) blocks)
    = Z.of_nat L * (block_count m k n h bd + block_count m t n h bd).
Proof.
  intros Hm Hn Hh.
  induction L as [|L IH]; intros g.
  - exists [], g. split; reflexivity.
  - cbn [BandSequenceModelModule.build].
    destruct (@RNNModule_init_kind_wf _ _ k n h ty bd m g Hm Hn Hh)
      as (a & g1 & Ea & Ka & Wa).
    rewrite Ea. cbn [bind].
    destruct (@RNNModule_init_kind_wf _ _ t n h ty bd m g1 Hm Hn Hh)
      as (b & g2 & Eb & Kb & Wb).
    rewrite Eb. cbn [bind].
    destruct (IH g2) as (rest & g3 & Er & Hc).
    rewrite Er. cbn [bind].
    exists ([a; b] :: rest), g3. split; [reflexivity|].
    cbn [flat_map]. rewrite app_nil_r, !total_app, Hc.
    rewrite (total_of_block Wa Ka), (total_of_block Wb Kb).
    lia.
Qed.

(** X1. For positive sizes and a supported recurrent class, the number of
    parameters of a constructed stack does not depend on the random
    generator: it is [num_layers] (zero when negative) times the count of
    a block for [k_subbands] plus the count of a block for [t_timesteps],
    each block counting two normalisation vectors, the recurrent weights
    and biases of every direction, and the projection. *)
Theorem parameter_count_closed_form
  (k_subbands t_timesteps input_dim_size hidden_dim_size : nat)
  (rnn_type : string) (bidirectional : bool) (num_layers : Z)
  (m : RNNBase.mode) (g : generator R) :
  (0 < k_subbands)%nat -> (0 < t_timesteps)%nat ->
  (0 < input_dim_size)%nat -> (0 < hidden_dim_size)%nat ->
  RNNModule.rnn_class rnn_type = Ok m ->
  exists self g',
    BandSequenceModelModule.init k_subbands t_timesteps input_dim_size
      hidden_dim_size rnn_type bidirectional num_layers g = Ok (self, g') /\
    total (of_stack self)
    = Z.max 0 num_layers
      * (block_count m k_subbands input_dim_size hidden_dim_size
                     bidirectional
         + block_count m t_timesteps input_dim_size hidden_dim_size
                       bidirectional).
Proof.
  intros _ _ Hn Hh Hm.
  destruct (@build_count (Z.to_nat num_layers) k_subbands t_timesteps
              input_dim_size hidden_dim_size rnn_type bidirectional m
              Hm Hn Hh g)
    as (blocks & g' & Eb & Hc).
  exists (BandSequenceModelModule.mk blocks), g'.
  unfold BandSequenceModelModule.init. rewrite Eb. cbn [bind].
  split; [reflexivity|].
  unfold of_stack. cbn [BandSequenceModelModule.bsrnn]. rewrite Hc.
  f_equal. lia.
Qed.
End ParameterCount.

(** * Dictionaries and the two hooks *)

Section DictFacts.
Context {V : Type}.
Implicit Types (d : dict V) (k : string) (p : string -> bool).

Lemma dict_get_None d k : dict_get d k = None <-> ~ In k (map fst d).
Proof.
  induction d as [|[k' v] d IH]; cbn [dict_get map fst In]; [tauto|].
  destruct (String.eqb_spec k' k) as [->|Hne].
  - split; [discriminate|]. intros Hn. exfalso. auto.
  - rewrite IH. tauto.
Qed.

Lemma dict_set_fresh d k (v : V) :
  ~ In k (map fst d) -> dict_set d k v = d ++ [(k, v)].
Proof.
  induction d as [|[k' v'] d IH]; cbn [dict_set map fst In app];
    [reflexivity|].
  intros Hn. destruct (String.eqb_spec k' k) as [->|Hne]; [tauto|].
  rewrite IH; tauto.
Qed.

Lemma fold_dict_set (pairs : list (string * V)) : forall acc : dict V,
  NoDup (map fst (acc ++ pairs)) ->
  fold_left (fun d kv => dict_set d (fst kv) (snd kv)) pairs acc
  = acc ++ pairs.
Proof.
  induction pairs as [|[k v] pairs IH]; intros acc Hnd; cbn [fold_left].
  - now rewrite app_nil_r.
  - cbn [fst snd]. rewrite dict_set_fresh.
    + rewrite IH; rewrite <- app_assoc; [reflexivity|exact Hnd].
    + rewrite map_app in Hnd. cbn [map fst] in Hnd.
      apply NoDup_remove_2 in Hnd. intros Hin. apply Hnd.
      apply in_or_app. now left.
Qed.

(** [dict(d.items())] of distinct keys is the same list. *)
Lemma dict_of_pairs_wf (pairs : list (string * V)) :
  NoDup (map fst pairs) -> dict_of_pairs pairs = pairs.
Proof. intros Hnd. unfold dict_of_pairs. now rewrite fold_dict_set. Qed.

Lemma filter_keys_wf p d :
  dict_wf d -> dict_wf (filter (fun kv => p (fst kv)) d).
Proof.
  unfold dict_wf. induction d as [|[k v] d IH]; cbn [filter map fst];
    [easy|].
  intros Hnd. inversion Hnd as [|? ? Hk Hd]; subst.
  destruct (p k); cbn [map fst]; [constructor|]; auto.
  intros Hin. apply Hk. apply in_map_iff in Hin as ([k' v'] & <- & Hin).
  apply filter_In in Hin as [Hin _]. apply in_map_iff. now exists (k', v').
Qed.

Lemma dict_get_filter p d k :
  dict_get (filter (fun kv => p (fst kv)) d) k
  = if p k then dict_get d k else None.
Proof.
  induction d as [|[k' v] d IH]; cbn [filter dict_get fst].
  - now destruct (p k).
  - destruct (p k') eqn:Ep; cbn [dict_get];
      destruct (String.eqb_spec k' k) as [->|Hne]; rewrite ?IH, ?Ep;
      reflexivity.
Qed.

Lemma filter_filter {A} (f : A -> bool) (l : list A) :
  filter f (filter f l) = filter f l.
Proof.
  induction l as [|a l IH]; cbn [filter]; [reflexivity|].
  destruct (f a) eqn:E; cbn [filter]; rewrite ?E, IH; reflexivity.
Qed.

Lemma filter_all {A} (f : A -> bool) (l : list A) :
  (forall a, In a l -> f a = true) -> filter f l = l.
Proof.
  induction l as [|a l IH]; cbn [filter]; intros Hall; [reflexivity|].
  rewrite (Hall a (or_introl eq_refl)), IH; [reflexivity|].
  intros b Hb. apply Hall. now right.
Qed.
End DictFacts.

Section HookFacts.
Context {A V : Type}.
Import PLSteps.

Lemma remove_per_weight_norms_filter (func : A -> dict V) args :
  dict_wf (func args) ->
  remove_per_weight_norms func args
  = filter (fun elem => str_contains "_total" (fst elem)) (func args).
Proof.
  intros Hwf. unfold remove_per_weight_norms.
  apply dict_of_pairs_wf.
  exact (filter_keys_wf (str_contains "_total") Hwf).
Qed.

(** X5. The wrapped gradient-norm function keeps exactly the entries
    whose key contains ["_total"], with their values and in their order:
    looking up such a key gives what the original gives, looking up any
    other key gives nothing, and the keys stay distinct. *)
Theorem remove_per_weight_norms_keeps_total_entries
  (func : A -> dict V) (args : A) :
  dict_wf (func args) ->
  remove_per_weight_norms func args
  = filter (fun elem => str_contains "_total" (fst elem)) (func args)
  /\ dict_wf (remove_per_weight_norms func args)
  /\ forall k,
       dict_get (remove_per_weight_norms func args) k
       = if str_contains "_total" k then dict_get (func args) k else None.
Proof.
  intros Hwf. rewrite (remove_per_weight_norms_filter _ _ Hwf).
  split; [reflexivity|].
  split; [exact (filter_keys_wf (str_contains "_total") Hwf)|].
  intros k. apply (dict_get_filter (str_contains "_total")).
Qed.

(** X6. Every [PLModel] that is created wraps the global gradient-norm
    function once more; however many models have been created, at least
    one, the global function behaves as after the first: wrapping is
    idempotent. *)
Theorem tracked_gradient_global_only_idempotent
  (grad_norm : A -> dict V) (n : nat) (args : A) :
  (forall a, dict_wf (grad_norm a)) ->
  1 <= n ->
  Nat.iter n tracked_gradient_global_only grad_norm args
  = tracked_gradient_global_only grad_norm args.
Proof.
  intros Hwf Hn. destruct n as [|n]; [lia|clear Hn].
  revert args. induction n as [|n IH]; intros args; [reflexivity|].
  change (Nat.iter (S (S n)) tracked_gradient_global_only grad_norm args)
    with (remove_per_weight_norms
            (Nat.iter (S n) tracked_gradient_global_only grad_norm) args).
  unfold remove_per_weight_norms at 1. rewrite IH.
  unfold tracked_gradient_global_only.
  rewrite (remove_per_weight_norms_filter _ _ (Hwf args)).
  rewrite filter_filter. apply dict_of_pairs_wf.
  exact (filter_keys_wf (str_contains "_total") (Hwf args)).
Qed.

(** X7. [get_progress_bar_dict] never reports ["v_num"] and changes no
    other entry; when the parent's dictionary has no ["v_num"] (the
    [pop] with a default raises nothing) it is returned as it is. *)
Theorem get_progress_bar_dict_drops_v_num (super_dict : dict V) :
  dict_get (get_progress_bar_dict super_dict) "v_num" = None
  /\ (forall k, k <> "v_num"%string ->
        dict_get (get_progress_bar_dict super_dict) k
        = dict_get super_dict k)
  /\ (dict_get super_dict "v_num" = None ->
      get_progress_bar_dict super_dict = super_dict).
Proof.
  unfold get_progress_bar_dict, dict_pop. cbn [snd].
  split; [|split].
  - rewrite (dict_get_filter (fun k => negb (String.eqb k "v_num"))).
    reflexivity.
  - intros k Hk.
    rewrite (dict_get_filter (fun k => negb (String.eqb k "v_num"))).
    apply String.eqb_neq in Hk. now rewrite Hk.
  - intros Hnone. apply filter_all. intros [k v] Hin. cbn [fst].
    apply dict_get_None in Hnone.
    destruct (String.eqb_spec k "v_num") as [->|]; [|reflexivity].
    exfalso. apply Hnone. apply in_map_iff. now exists ("v_num"%string, v).
Qed.
End HookFacts.

(** [str_contains] is the substring test. *)
Lemma prefix_spec (s1 s2 : string) :
  String.prefix s1 s2 = true <-> exists post, s2 = (s1 ++ post)%string.
Proof.
  revert s2; induction s1 as [|c s1 IH]; intros s2.
  - split; [intros _; now exists s2|intros _; now destruct s2].
  - destruct s2 as [|c2 s2]; cbn [String.prefix];
      [split; [discriminate|intros [post [=]]]|].
    destruct (Ascii.ascii_dec c c2) as [->|Hne].
    + rewrite IH. split; intros [post E]; exists post; cbn in *; congruence.
    + split; [discriminate|]. intros [post [= E _]]. congruence.
Qed.

Lemma str_contains_spec (needle hay : string) :
  str_contains needle hay = true
  <-> exists pre post, hay = (pre ++ needle ++ post)%string.
Proof.
  induction hay as [|c hay IH]; cbn [str_contains];
    rewrite orb_true_iff, prefix_spec.
  - split.
    + intros [[post E]|[=]]. now exists EmptyString, post.
    + intros (pre & post & E). left.
      destruct pre; [now exists post|discriminate].
  - rewrite IH. split.
    + intros [[post E]|(pre & post & E)].
      * now exists EmptyString, post.
      * exists (String c pre), post. cbn. now rewrite E.
    + intros (pre & post & E). destruct pre as [|c' pre].
      * left. now exists post.
      * right. injection E as _ E. now exists pre, post.
Qed.

(** * The training and validation steps *)

Section StepFacts.
Context {R : Type} `{Scalar R}.
Import PLSteps.

(** X8. [step] needs a batch that, after augmentation, has at least two
    sources on axis 1 (index 0 the mixture, index 1 the target): on a
    batch with fewer it raises [IndexError] at [batch[:, 1]], whatever
    the featurizer and the model are. *)
Theorem step_needs_two_sources (self : t) (batch b : tensor R) :
  augmentations self batch = Ok b ->
  nth 1 (shape b) 0 < 2 ->
  step self batch = Err IndexError.
Proof.
  intros Ea Hn. unfold step. rewrite Ea. cbn [bind].
  unfold select1. destruct (shape b) as [|B [|n_sources rest]];
    try reflexivity.
  cbn [nth] in Hn.
  assert (E : (1 <? n_sources) = false) by (apply Nat.ltb_ge; lia).
  now rewrite E.
Qed.

Lemma compute_losses_inv (a b : PLModel.complex_tensor R) (c e : tensor R)
  loss d :
  PLModel.compute_losses a b c e = Ok (loss, d) ->
  exists lossR lossI lossT,
    d = [("lossSpecR"%string, lossR); ("lossSpecI"%string, lossI);
         ("lossTime"%string, lossT)] /\
    loss = PLModel.py_sum [lossR; lossI; lossT].
Proof.
  unfold PLModel.compute_losses.
  destruct (PLModel.L1Loss (PLModel.real a) (PLModel.real b)) as [lR|];
    cbn [bind]; [|discriminate].
  destruct (PLModel.L1Loss (PLModel.imag a) (PLModel.imag b)) as [lI|];
    cbn [bind]; [|discriminate].
  destruct (PLModel.L1Loss c e) as [lT|]; cbn [bind]; [|discriminate].
  intros [= <- <-]. now exists lR, lI, lT.
Qed.

Lemma step_inv (self : t) batch loss d :
  step self batch = Ok (loss, d) ->
  exists lossR lossI lossT,
    d = [("lossSpecR"%string, lossR); ("lossSpecI"%string, lossI);
         ("lossTime"%string, lossT)] /\
    loss = PLModel.py_sum [lossR; lossI; lossT].
Proof.
  unfold step.
  destruct (augmentations self batch) as [b|]; cbn [bind]; [|discriminate].
  destruct (select1 b 1) as [tt|]; cbn [bind]; [|discriminate].
  destruct (featurizer self b) as [bf|]; cbn [bind]; [|discriminate].
  destruct (cselect1 bf 0) as [mf|]; cbn [bind]; [|discriminate].
  destruct (cselect1 bf 1) as [tf|]; cbn [bind]; [|discriminate].
  destruct (model self mf) as [fh|]; cbn [bind]; [|discriminate].
  destruct (last_dim tt) as [len|]; cbn [bind]; [|discriminate].
  destruct (inverse_featurizer self fh len) as [th|]; cbn [bind];
    [|discriminate].
  apply compute_losses_inv.
Qed.

(** X9. When [step] returns, [training_step] and [validation_step] return
    its loss, the sum of the three terms, and log the same four values in
    the same order under ["train/..."] and ["val/..."]: the real-part,
    imaginary-part and time-domain terms, then the loss; only ["val/loss"]
    is sent to the progress bar. *)
Theorem steps_log_three_terms_and_loss (self : t) (batch : tensor R)
  (loss : R) (loss_dict : dict R) :
  step self batch = Ok (loss, loss_dict) ->
  exists lossR lossI lossT,
    loss = PLModel.py_sum [lossR; lossI; lossT] /\
    training_step self batch
    = Ok (loss,
          [mk_logged "train/lossSpecR" lossR false;
           mk_logged "train/lossSpecI" lossI false;
           mk_logged "train/lossTime" lossT false;
           mk_logged "train/loss" loss false]) /\
    validation_step self batch
    = Ok (loss,
          [mk_logged "val/lossSpecR" lossR false;
           mk_logged "val/lossSpecI" lossI false;
           mk_logged "val/lossTime" lossT false;
           mk_logged "val/loss" loss true]).
Proof.
  intros Es. destruct (step_inv _ _ Es) as (lR & lI & lT & -> & El).
  exists lR, lI, lT. split; [exact El|].
  unfold training_step, validation_step. rewrite Es. cbn [bind].
  split; reflexivity.
Qed.
End StepFacts.

Section ZeroLoss.
Context {R : Type} `{Scalar R} `{!ScalarLaws R} `{!ScalarMetricLaws R}.
Import PLModel.

Lemma mae_same (a : list R) : a <> [] -> mae a a = zero.
Proof.
  intros Ha. unfold mae.
  assert (Hz : Forall (fun v => v = zero)
                 (map (fun p => abs (sub (fst p) (snd p))) (combine a a))).
  { apply Forall_map, Forall_forall. intros [x y] Hin. cbn [fst snd].
    assert (x = y) as ->.
    { clear Ha. induction a as [|z a IH]; [destruct Hin|].
      destruct Hin as [[= -> ->]|Hin]; auto. }
    now rewrite sub_diag, abs_zero. }
  rewrite (vsum_zeros Hz).
  destruct a as [|x a]; [congruence|]. cbn [length]. apply div_zero_l.
Qed.

(** X10. Over exact arithmetic, a prediction equal to its target, on
    non-empty tensors, has loss zero and three zero terms. *)
Theorem perfect_prediction_has_zero_loss
  (tgt_freq : complex_tensor R) (tgt_time : tensor R) :
  re tgt_freq <> [] -> im tgt_freq <> [] -> data tgt_time <> [] ->
  compute_losses tgt_freq tgt_freq tgt_time tgt_time
  = Ok (zero,
        [("lossSpecR"%string, zero); ("lossSpecI"%string, zero);
         ("lossTime"%string, zero)]).
Proof.
  intros Hre Him Ht. unfold compute_losses, L1Loss, real, imag.
  cbn [shape data]. rewrite !shape_eqb_refl. cbn [bind].
  rewrite !mae_same by assumption.
  cbn [map snd py_sum fold_left]. now rewrite !add_zero_l.
Qed.
End ZeroLoss.

Lemma ScalarMetricLaws_Z : ScalarMetricLaws Z.
Proof.
  split; intros; cbn; lia.
Qed.
#[export] Existing Instance ScalarMetricLaws_Z.

(** * The further theorems at concrete inputs *)

Module MoreWitnesses.
Import Examples MoreExamples.


Example init_run_zero_hidden_size :
  BandSequenceModelModule.init 2 3 1 0 "GRU" true 1 gen0 = Err ValueError.
Proof. reflexivity. Qed.

Example stack_run_empty_time_axis :
  BandSequenceModelModule.forward stack_kt x_empty = Err RuntimeError.
Proof. reflexivity. Qed.

Ltac solve_keys :=
  unfold dict_wf; cbn [map fst];
  repeat (constructor; [cbn [In]; intuition discriminate|]);
  constructor.

(** The configuration of the script at the end of [bandsequence.py]. *)
Lemma parameter_count_closed_form_witness :
  exists self g',
    BandSequenceModelModule.init 41 259 128 256 "LSTM" true 12 gen0
    = Ok (self, g') /\
    Parameters.total (Parameters.of_stack self) = 20555808%Z.
Proof.
  destruct (@parameter_count_closed_form Z _ 41 259 128 256 "LSTM" true 12
              RNNBase.LSTM gen0 ltac:(lia) ltac:(lia) ltac:(lia) ltac:(lia)
              eq_refl) as (self & g' & E & Hc).
  exists self, g'. split; [exact E|]. rewrite Hc. reflexivity.
Defined.



Lemma remove_per_weight_norms_keeps_total_entries_witness :
  PLSteps.remove_per_weight_norms (fun _ : unit => norms) tt
  = [("grad_2.0_norm_total"%string, 5%Z)].
Proof.
  refine (proj1 (@remove_per_weight_norms_keeps_total_entries unit Z
                   (fun _ => norms) tt _)).
  solve_keys.
Defined.

Lemma tracked_gradient_global_only_idempotent_witness :
  Nat.iter 3 PLSteps.tracked_gradient_global_only (fun _ : unit => norms) tt
  = PLSteps.tracked_gradient_global_only (fun _ : unit => norms) tt.
Proof.
  refine (@tracked_gradient_global_only_idempotent unit Z (fun _ => norms)
            3 tt _ _); [intros _; solve_keys|lia].
Defined.

Lemma step_needs_two_sources_witness :
  PLSteps.step toy batch_1 = Err IndexError.
Proof.
  refine (@step_needs_two_sources Z _ toy batch_1 batch_1 eq_refl _).
  cbn. lia.
Defined.

Lemma steps_log_three_terms_and_loss_witness :
  exists lossR lossI lossT : Z,
    10%Z = PLModel.py_sum [lossR; lossI; lossT] /\
    PLSteps.training_step toy batch_2
    = Ok (10%Z,
          [PLSteps.mk_logged "train/lossSpecR" lossR false;
           PLSteps.mk_logged "train/lossSpecI" lossI false;
           PLSteps.mk_logged "train/lossTime" lossT false;
           PLSteps.mk_logged "train/loss" 10%Z false]) /\
    PLSteps.validation_step toy batch_2
    = Ok (10%Z,
          [PLSteps.mk_logged "val/lossSpecR" lossR false;
           PLSteps.mk_logged "val/lossSpecI" lossI false;
           PLSteps.mk_logged "val/lossTime" lossT false;
           PLSteps.mk_logged "val/loss" 10%Z true]).
Proof.
  exact (@steps_log_three_terms_and_loss Z _ toy batch_2 10%Z
           [("lossSpecR"%string, 5%Z); ("lossSpecI"%string, 0%Z);
            ("lossTime"%string, 5%Z)] eq_refl).
Defined.

Lemma perfect_prediction_has_zero_loss_witness :
  PLModel.compute_losses z_23 z_23 t_4 t_4
  = Ok (0%Z,
        [("lossSpecR"%string, 0%Z); ("lossSpecI"%string, 0%Z);
         ("lossTime"%string, 0%Z)]).
Proof.
  refine (@perfect_prediction_has_zero_loss Z _ _ _ z_23 t_4 _ _ _);
    discriminate.
Defined.
End MoreWitnesses.
